(** * ChibiOS/RT debug support: [os/rt/include/chdebug.h]

    A shallow embedding of the header: its constants, its build-time
    settings and their defaults, the trace record with its bit fields,
    and the macros it defines (lock tracking, the elided state-checker
    and trace entry points, [chDbgCheck] and [chDbgAssert]).

    The header is preprocessor code.  A build is a value of [chconf]
    (what [chconf.h] supplies); every [#if] of the header becomes an
    [if] on that value, in the order of the header. *)

From Stdlib Require Import ZArith Lia Bool String List.
From coqutil Require Import Z.bitblast.
Import ListNotations.
Local Open Scope Z_scope.

(* ===================================================================== *)
(** * Module constants *)
(* ===================================================================== *)

(** Trace record types. *)
Definition CH_TRACE_TYPE_UNUSED    : Z := 0.
Definition CH_TRACE_TYPE_SWITCH    : Z := 1.
Definition CH_TRACE_TYPE_ISR_ENTER : Z := 2.
Definition CH_TRACE_TYPE_ISR_LEAVE : Z := 3.

(** Events to trace. *)
Definition CH_DBG_TRACE_MASK_NONE   : Z := 0.
Definition CH_DBG_TRACE_MASK_SWITCH : Z := 1.
Definition CH_DBG_TRACE_MASK_ISR    : Z := 2.
Definition CH_DBG_TRACE_MASK_ALL    : Z :=
  Z.lor CH_DBG_TRACE_MASK_SWITCH CH_DBG_TRACE_MASK_ISR.

(** The four record types, in the order of the header. *)
Definition trace_types : list Z :=
  [CH_TRACE_TYPE_UNUSED; CH_TRACE_TYPE_SWITCH;
   CH_TRACE_TYPE_ISR_ENTER; CH_TRACE_TYPE_ISR_LEAVE].

(* ===================================================================== *)
(** * Module pre-compile time settings *)
(* ===================================================================== *)

(** What the integrator's [chconf.h] hands to the header.  The three
    switches are always defined there; the four settings guarded by
    [#if !defined(...)] may be left out ([None]).  Values are the
    integers the preprocessor computes with; [Z.land] is its [&]. *)
Record chconf : Type := {
  CH_DBG_SYSTEM_STATE_CHECK     : Z;
  CH_DBG_ENABLE_CHECKS          : Z;
  CH_DBG_ENABLE_ASSERTS         : Z;
  user_CH_DBG_TRACE_MASK        : option Z;
  user_CH_DBG_TRACE_BUFFER_SIZE : option Z;
  user_CH_DBG_STACK_FILL_VALUE  : option Z;
  user_CH_DBG_THREAD_FILL_VALUE : option Z
}.

(** [#if !defined(X)  #define X d  #endif] *)
Definition ifndef (user : option Z) (d : Z) : Z :=
  match user with
  | Some v => v
  | None => d
  end.

Definition CH_DBG_TRACE_MASK (cfg : chconf) : Z :=
  ifndef (user_CH_DBG_TRACE_MASK cfg) CH_DBG_TRACE_MASK_ALL.

Definition CH_DBG_TRACE_BUFFER_SIZE (cfg : chconf) : Z :=
  ifndef (user_CH_DBG_TRACE_BUFFER_SIZE cfg) 128.

Definition CH_DBG_STACK_FILL_VALUE (cfg : chconf) : Z :=
  ifndef (user_CH_DBG_STACK_FILL_VALUE cfg) 0x55.

Definition CH_DBG_THREAD_FILL_VALUE (cfg : chconf) : Z :=
  ifndef (user_CH_DBG_THREAD_FILL_VALUE cfg) 0xFF.

(** [#if (CH_DBG_TRACE_MASK != CH_DBG_TRACE_MASK_NONE)]: the guard of the
    trace structures and of [_dbg_trace_init]. *)
Definition trace_structures_present (cfg : chconf) : bool :=
  negb (CH_DBG_TRACE_MASK cfg =? CH_DBG_TRACE_MASK_NONE).

(* ===================================================================== *)
(** * Module data structures and types *)
(* ===================================================================== *)

(** ** Bit fields of one [uint32_t] storage unit

    [uint32_t f : w] placed [off] bits above the least significant bit.
    Reading yields the [w] bits as an unsigned value; assigning converts
    the value to the field's width (modulo [2 ^ w]) and leaves the other
    bits of the unit alone. *)
Definition bf_get (off w unit_ : Z) : Z :=
  Z.land (Z.shiftr unit_ off) (Z.ones w).

Definition bf_set (off w unit_ v : Z) : Z :=
  Z.lor (Z.land unit_ (Z.lnot (Z.shiftl (Z.ones w) off)))
        (Z.shiftl (Z.land v (Z.ones w)) off).

(** Widths as declared: [type:3], [state:5], [rtstamp:24]. *)
Definition type_width    : Z := 3.
Definition state_width   : Z := 5.
Definition rtstamp_width : Z := 24.

(** Offsets: the fields are allocated in declaration order from the least
    significant bit of the unit (the allocation order of the little-endian
    ABIs the kernel is built for; the order is the compiler's choice, the
    widths are the header's). *)
Definition type_off    : Z := 0.
Definition state_off   : Z := type_off + type_width.
Definition rtstamp_off : Z := state_off + state_width.

(** The payload union: [u.sw] for a context switch ([ntp], [wtobjp]),
    [u.isr] for an ISR enter or leave ([name]).  Pointers are kept as
    addresses, the ISR name as the string it points to. *)
Inductive trace_payload : Type :=
| u_sw  (ntp : Z) (wtobjp : Z)
| u_isr (name : string).

(** [ch_trace_event_t].  [bits] is the storage unit shared by the three
    bit fields, [time] the [systime_t] stamp. *)
Record ch_trace_event_t : Type := {
  bits : Z;
  time : Z;
  u    : trace_payload
}.

Definition ev_type    (e : ch_trace_event_t) : Z := bf_get type_off type_width (bits e).
Definition ev_state   (e : ch_trace_event_t) : Z := bf_get state_off state_width (bits e).
Definition ev_rtstamp (e : ch_trace_event_t) : Z := bf_get rtstamp_off rtstamp_width (bits e).

Definition with_bits (e : ch_trace_event_t) (b : Z) : ch_trace_event_t :=
  {| bits := b; time := time e; u := u e |}.

(** [e.type = v;], [e.state = v;], [e.rtstamp = v;] *)
Definition set_type (e : ch_trace_event_t) (v : Z) : ch_trace_event_t :=
  with_bits e (bf_set type_off type_width (bits e) v).
Definition set_state (e : ch_trace_event_t) (v : Z) : ch_trace_event_t :=
  with_bits e (bf_set state_off state_width (bits e) v).
Definition set_rtstamp (e : ch_trace_event_t) (v : Z) : ch_trace_event_t :=
  with_bits e (bf_set rtstamp_off rtstamp_width (bits e) v).

(** A record as it sits in memory: the unit is a 32-bit word. *)
Definition event_ok (e : ch_trace_event_t) : Prop :=
  0 <= bits e < 2 ^ 32.

(** [ch_trace_buffer_t]: size in entries, the front pointer (kept as an
    index into the array) and the ring [tb_buffer], declared with
    [CH_DBG_TRACE_BUFFER_SIZE] elements. *)
Record ch_trace_buffer_t : Type := {
  tb_size   : Z;
  tb_ptr    : Z;
  tb_buffer : list ch_trace_event_t
}.

(** The array bound of the declaration. *)
Definition trace_buffer_ok (cfg : chconf) (tb : ch_trace_buffer_t) : Prop :=
  Z.of_nat (length (tb_buffer tb)) = CH_DBG_TRACE_BUFFER_SIZE cfg.

(** Modelled from the spec: the recorder that fills a slot is in the
    kernel's C sources, not in this header.  It builds the record in the
    slot at the write cursor: the kind, the switched-out state, the
    payload, the coarse timestamp, and as fine timestamp a sample of the
    hardware cycle counter where the platform has one ([PORT_SUPPORTS_RT],
    as the header's note on [rtstamp] calls it) and zero where it has
    none. *)
Definition trace_record (PORT_SUPPORTS_RT : bool) (rtcnt systime : Z)
    (kind state : Z) (payload : trace_payload) (slot : ch_trace_event_t)
  : ch_trace_event_t :=
  let e1 := set_type slot kind in
  let e2 := set_state e1 state in
  let e3 := set_rtstamp e2 (if PORT_SUPPORTS_RT then rtcnt else 0) in
  {| bits := bits e3; time := systime; u := payload |}.

(** A slot of a zeroed buffer. *)
Definition blank_event : ch_trace_event_t :=
  {| bits := 0; time := 0; u := u_sw 0 0 |}.

(* ===================================================================== *)
(** * The system instance and the effects of a macro *)
(* ===================================================================== *)

Section Kernel.

(** The fields of the system instance [ch] other than [ch.dbg.lock_cnt];
    they are declared outside this header, which names none of them. *)
Variable R : Type.

Record ch_system : Type := {
  lock_cnt : Z;
  ch_rest  : R
}.

(** [ch.dbg.lock_cnt = (cnt_t)v] for the two constants the header
    assigns, 0 and 1, which every integer type holds unchanged. *)
Definition set_lock_cnt (s : ch_system) (v : Z) : ch_system :=
  {| lock_cnt := v; ch_rest := ch_rest s |}.

(** A statement either runs to its end or stops the system. *)
Inductive outcome (A : Type) : Type :=
| Returns (a : A) (s : ch_system)
| Halts (reason : string) (s : ch_system).
Arguments Returns {A} a s.
Arguments Halts {A} reason s.

Definition M (A : Type) : Type := ch_system -> outcome A.

Definition ret {A : Type} (a : A) : M A := fun s => Returns a s.

Definition bind {A B : Type} (m : M A) (k : A -> M B) : M B :=
  fun s =>
    match m s with
    | Returns a s' => k a s'
    | Halts reason s' => Halts reason s'
    end.

(** The empty statement. *)
Definition skip : M unit := ret tt.

(** Modelled from the spec: [chSysHalt] is the kernel's fatal-halt
    primitive, defined outside this header.  A call requests a halt
    carrying the reason it was given, and a halt is terminal: nothing
    after it runs. *)
Definition chSysHalt {A : Type} (reason : string) : M A :=
  fun s => Halts reason s.

(** The functions the header only declares; their bodies are in the
    kernel's C sources. *)
Class chdebug_c : Type := {
  impl_dbg_check_disable         : M unit;
  impl_dbg_check_suspend         : M unit;
  impl_dbg_check_enable          : M unit;
  impl_dbg_check_lock            : M unit;
  impl_dbg_check_unlock          : M unit;
  impl_dbg_check_lock_from_isr   : M unit;
  impl_dbg_check_unlock_from_isr : M unit;
  impl_dbg_check_enter_isr       : M unit;
  impl_dbg_check_leave_isr       : M unit;
  impl_chDbgCheckClassI          : M unit;
  impl_chDbgCheckClassS          : M unit;
  impl_dbg_trace_switch          : Z -> M unit;
  impl_dbg_trace_isr_enter       : string -> M unit;
  impl_dbg_trace_isr_leave       : string -> M unit
}.

(** A name the header may leave undefined in some build: [None] is a
    call site that does not compile. *)
Definition call {A : Type} (m : option (M A)) (s : ch_system)
  : option (outcome A) :=
  match m with
  | Some f => Some (f s)
  | None => None
  end.

(** Two calls in a row. *)
Definition then_ (m1 m2 : option (M unit)) : option (M unit) :=
  match m1, m2 with
  | Some f1, Some f2 => Some (bind f1 (fun _ => f2))
  | _, _ => None
  end.

(* =================================================================== *)
(** * Module macros *)
(* =================================================================== *)

(** [TRUE] and [FALSE] come from the port's type header. *)
Variables TRUE FALSE : Z.

Section Build.

Variable cfg : chconf.
Context {ext : chdebug_c}.

(** [#if CH_DBG_SYSTEM_STATE_CHECK == TRUE] gives the name the meaning
    [on]; [#if CH_DBG_SYSTEM_STATE_CHECK == FALSE] makes it an empty
    macro; with any other value the header gives it none. *)
Definition state_check_switch (on : M unit) : option (M unit) :=
  if CH_DBG_SYSTEM_STATE_CHECK cfg =? TRUE then Some on
  else if CH_DBG_SYSTEM_STATE_CHECK cfg =? FALSE then Some skip
  else None.

Definition _dbg_enter_lock : option (M unit) :=
  state_check_switch (fun s => Returns tt (set_lock_cnt s 1)).

Definition _dbg_leave_lock : option (M unit) :=
  state_check_switch (fun s => Returns tt (set_lock_cnt s 0)).

Definition _dbg_check_disable : option (M unit) :=
  state_check_switch impl_dbg_check_disable.
Definition _dbg_check_suspend : option (M unit) :=
  state_check_switch impl_dbg_check_suspend.
Definition _dbg_check_enable : option (M unit) :=
  state_check_switch impl_dbg_check_enable.
Definition _dbg_check_lock : option (M unit) :=
  state_check_switch impl_dbg_check_lock.
Definition _dbg_check_unlock : option (M unit) :=
  state_check_switch impl_dbg_check_unlock.
Definition _dbg_check_lock_from_isr : option (M unit) :=
  state_check_switch impl_dbg_check_lock_from_isr.
Definition _dbg_check_unlock_from_isr : option (M unit) :=
  state_check_switch impl_dbg_check_unlock_from_isr.
Definition _dbg_check_enter_isr : option (M unit) :=
  state_check_switch impl_dbg_check_enter_isr.
Definition _dbg_check_leave_isr : option (M unit) :=
  state_check_switch impl_dbg_check_leave_isr.
Definition chDbgCheckClassI : option (M unit) :=
  state_check_switch impl_chDbgCheckClassI.
Definition chDbgCheckClassS : option (M unit) :=
  state_check_switch impl_chDbgCheckClassS.

(** Every name of the state checker, in the order of the header. *)
Definition state_checker_names : list (option (M unit)) :=
  [_dbg_enter_lock; _dbg_leave_lock;
   _dbg_check_disable; _dbg_check_suspend; _dbg_check_enable;
   _dbg_check_lock; _dbg_check_unlock;
   _dbg_check_lock_from_isr; _dbg_check_unlock_from_isr;
   _dbg_check_enter_isr; _dbg_check_leave_isr;
   chDbgCheckClassI; chDbgCheckClassS].

(** [#if (CH_DBG_TRACE_MASK & CH_DBG_TRACE_MASK_SWITCH) == 0] makes
    [_dbg_trace_switch(otp)] an empty macro; otherwise the name is the
    declared function. *)
Definition _dbg_trace_switch (otp : Z) : M unit :=
  if Z.land (CH_DBG_TRACE_MASK cfg) CH_DBG_TRACE_MASK_SWITCH =? 0
  then skip
  else impl_dbg_trace_switch otp.

(** [#if (CH_DBG_TRACE_MASK & CH_DBG_TRACE_MASK_ISR) == 0] makes both
    [_dbg_trace_isr_enter(isr)] and [_dbg_trace_isr_leave(isr)] empty
    macros; otherwise the names are the declared functions. *)
Definition _dbg_trace_isr_enter (isr : string) : M unit :=
  if Z.land (CH_DBG_TRACE_MASK cfg) CH_DBG_TRACE_MASK_ISR =? 0
  then skip
  else impl_dbg_trace_isr_enter isr.

Definition _dbg_trace_isr_leave (isr : string) : M unit :=
  if Z.land (CH_DBG_TRACE_MASK cfg) CH_DBG_TRACE_MASK_ISR =? 0
  then skip
  else impl_dbg_trace_isr_leave isr.

(** [chDbgCheck(c)], expanded in the function named [func] (what
    [__func__] is there).  [c] is the condition as written at the call
    site, an expression that may itself read or change the system; it
    is evaluated only inside the outer [if], and [!(c)] holds when its
    value is zero.  This is the header's own definition, the one in
    force unless the name is already a macro when the header is read. *)
Definition chDbgCheck (func : string) (c : M Z) : M unit :=
  if negb (CH_DBG_ENABLE_CHECKS cfg =? FALSE) then
    bind c (fun v => if v =? 0 then chSysHalt func else ret tt)
  else ret tt.

(** [chDbgAssert(c, r)]: the same with [CH_DBG_ENABLE_ASSERTS]; the
    remark [r], an expression like [c], appears nowhere in the
    expansion. *)
Definition chDbgAssert (func : string) (c : M Z) (r : M string) : M unit :=
  if negb (CH_DBG_ENABLE_ASSERTS cfg =? FALSE) then
    bind c (fun v => if v =? 0 then chSysHalt func else ret tt)
  else ret tt.

End Build.

(** ** The three trace entry points and their call sites *)

Inductive trace_entry : Type :=
| TraceSwitch
| TraceIsrEnter
| TraceIsrLeave.

Inductive trace_call : Type :=
| CallSwitch (otp : Z)
| CallIsrEnter (isr : string)
| CallIsrLeave (isr : string).

Definition entry_of (c : trace_call) : trace_entry :=
  match c with
  | CallSwitch _ => TraceSwitch
  | CallIsrEnter _ => TraceIsrEnter
  | CallIsrLeave _ => TraceIsrLeave
  end.

(** What the call site does in a build. *)
Definition run_trace (cfg : chconf) {ext : chdebug_c} (c : trace_call) : M unit :=
  match c with
  | CallSwitch otp => _dbg_trace_switch cfg otp
  | CallIsrEnter isr => _dbg_trace_isr_enter cfg isr
  | CallIsrLeave isr => _dbg_trace_isr_leave cfg isr
  end.

(** What the declared function does. *)
Definition run_impl {ext : chdebug_c} (c : trace_call) : M unit :=
  match c with
  | CallSwitch otp => impl_dbg_trace_switch otp
  | CallIsrEnter isr => impl_dbg_trace_isr_enter isr
  | CallIsrLeave isr => impl_dbg_trace_isr_leave isr
  end.

(** The entry point is compiled out: whatever the kernel's C sources
    define, each of its call sites does nothing. *)
Definition compiled_out (cfg : chconf) (e : trace_entry) : Prop :=
  forall (ext : chdebug_c) (c : trace_call) (s : ch_system),
    entry_of c = e -> run_trace cfg c s = Returns tt s.

(** The entry point is compiled in: each of its call sites is a call of
    the declared function. *)
Definition compiled_in (cfg : chconf) (e : trace_entry) : Prop :=
  forall (ext : chdebug_c) (c : trace_call) (s : ch_system),
    entry_of c = e -> run_trace cfg c s = run_impl c s.

(** The preprocessor's decision for each entry point. *)
Definition elided (cfg : chconf) (e : trace_entry) : bool :=
  match e with
  | TraceSwitch =>
      Z.land (CH_DBG_TRACE_MASK cfg) CH_DBG_TRACE_MASK_SWITCH =? 0
  | TraceIsrEnter | TraceIsrLeave =>
      Z.land (CH_DBG_TRACE_MASK cfg) CH_DBG_TRACE_MASK_ISR =? 0
  end.

End Kernel.

Arguments lock_cnt {R} _.
Arguments ch_rest {R} _.
Arguments Returns {R A} a s.
Arguments Halts {R A} reason s.
Arguments ret {R A} a _.
Arguments bind {R A B} m k _.
Arguments skip {R} _.
Arguments chSysHalt {R A} reason _.
Arguments call {R A} m s.
Arguments then_ {R} m1 m2.
Arguments set_lock_cnt {R} s v.
Arguments state_check_switch {R} TRUE FALSE cfg on.
Arguments _dbg_enter_lock {R} TRUE FALSE cfg.
Arguments _dbg_leave_lock {R} TRUE FALSE cfg.
Arguments _dbg_check_disable {R} TRUE FALSE cfg {ext}.
Arguments _dbg_check_suspend {R} TRUE FALSE cfg {ext}.
Arguments _dbg_check_enable {R} TRUE FALSE cfg {ext}.
Arguments _dbg_check_lock {R} TRUE FALSE cfg {ext}.
Arguments _dbg_check_unlock {R} TRUE FALSE cfg {ext}.
Arguments _dbg_check_lock_from_isr {R} TRUE FALSE cfg {ext}.
Arguments _dbg_check_unlock_from_isr {R} TRUE FALSE cfg {ext}.
Arguments _dbg_check_enter_isr {R} TRUE FALSE cfg {ext}.
Arguments _dbg_check_leave_isr {R} TRUE FALSE cfg {ext}.
Arguments chDbgCheckClassI {R} TRUE FALSE cfg {ext}.
Arguments chDbgCheckClassS {R} TRUE FALSE cfg {ext}.
Arguments state_checker_names {R} TRUE FALSE cfg {ext}.
Arguments _dbg_trace_switch {R} cfg {ext} otp _.
Arguments _dbg_trace_isr_enter {R} cfg {ext} isr _.
Arguments _dbg_trace_isr_leave {R} cfg {ext} isr _.
Arguments chDbgCheck {R} FALSE cfg func c _.
Arguments chDbgAssert {R} FALSE cfg func c r _.
Arguments run_trace {R} cfg {ext} c _.
Arguments run_impl {R} {ext} c _.

(* ===================================================================== *)
(** * Builds and kernels to run the macros on *)
(* ===================================================================== *)

(** A [chconf.h] that defines the three switches and nothing else. *)
Definition chconf_switches (state_check checks asserts : Z) : chconf :=
  {| CH_DBG_SYSTEM_STATE_CHECK := state_check;
     CH_DBG_ENABLE_CHECKS := checks;
     CH_DBG_ENABLE_ASSERTS := asserts;
     user_CH_DBG_TRACE_MASK := None;
     user_CH_DBG_TRACE_BUFFER_SIZE := None;
     user_CH_DBG_STACK_FILL_VALUE := None;
     user_CH_DBG_THREAD_FILL_VALUE := None |}.

(** The same with a trace mask of the integrator's. *)
Definition chconf_mask (state_check checks asserts mask : Z) : chconf :=
  {| CH_DBG_SYSTEM_STATE_CHECK := state_check;
     CH_DBG_ENABLE_CHECKS := checks;
     CH_DBG_ENABLE_ASSERTS := asserts;
     user_CH_DBG_TRACE_MASK := Some mask;
     user_CH_DBG_TRACE_BUFFER_SIZE := None;
     user_CH_DBG_STACK_FILL_VALUE := None;
     user_CH_DBG_THREAD_FILL_VALUE := None |}.

(** A system instance with nothing but the lock counter. *)
Definition ch_with_lock_cnt (n : Z) : ch_system unit :=
  {| lock_cnt := n; ch_rest := tt |}.

(** Kernel sources whose every function stops the system under its own
    name: a call that reaches one of them cannot go unnoticed. *)
Definition loud_kernel (R : Type) : chdebug_c R :=
  {| impl_dbg_check_disable         := chSysHalt "_dbg_check_disable";
     impl_dbg_check_suspend         := chSysHalt "_dbg_check_suspend";
     impl_dbg_check_enable          := chSysHalt "_dbg_check_enable";
     impl_dbg_check_lock            := chSysHalt "_dbg_check_lock";
     impl_dbg_check_unlock          := chSysHalt "_dbg_check_unlock";
     impl_dbg_check_lock_from_isr   := chSysHalt "_dbg_check_lock_from_isr";
     impl_dbg_check_unlock_from_isr := chSysHalt "_dbg_check_unlock_from_isr";
     impl_dbg_check_enter_isr       := chSysHalt "_dbg_check_enter_isr";
     impl_dbg_check_leave_isr       := chSysHalt "_dbg_check_leave_isr";
     impl_chDbgCheckClassI          := chSysHalt "chDbgCheckClassI";
     impl_chDbgCheckClassS          := chSysHalt "chDbgCheckClassS";
     impl_dbg_trace_switch          := fun _ => chSysHalt "_dbg_trace_switch";
     impl_dbg_trace_isr_enter       := fun _ => chSysHalt "_dbg_trace_isr_enter";
     impl_dbg_trace_isr_leave       := fun _ => chSysHalt "_dbg_trace_isr_leave" |}.

(** A context-switch record written on a platform with a cycle counter
    whose sample does not fit 24 bits. *)
Definition sample_event : ch_trace_event_t :=
  trace_record true 0x1ABCDEF0 77 CH_TRACE_TYPE_SWITCH 9 (u_sw 4096 0)
               blank_event.

(** A zeroed trace buffer of the default build. *)
Definition blank_buffer : ch_trace_buffer_t :=
  {| tb_size := 128; tb_ptr := 0; tb_buffer := repeat blank_event 128 |}.

(** A call site of each entry point. *)
Definition a_call (e : trace_entry) : trace_call :=
  match e with
  | TraceSwitch => CallSwitch 0
  | TraceIsrEnter => CallIsrEnter "isr"
  | TraceIsrLeave => CallIsrLeave "isr"
  end.

(* ===================================================================== *)
(** * External declarations, call sequences and conditions *)
(* ===================================================================== *)

(** The header's last block declares [_dbg_trace_init] under
    [#if (CH_DBG_TRACE_MASK != CH_DBG_TRACE_MASK_NONE)]. *)
Definition _dbg_trace_init_declared (cfg : chconf) : bool :=
  negb (CH_DBG_TRACE_MASK cfg =? CH_DBG_TRACE_MASK_NONE).

(** Inside that test, [_dbg_trace_switch] is declared under
    [#if (CH_DBG_TRACE_MASK & CH_DBG_TRACE_MASK_SWITCH) != 0], and
    [_dbg_trace_isr_enter] and [_dbg_trace_isr_leave] under
    [#if (CH_DBG_TRACE_MASK & CH_DBG_TRACE_MASK_ISR) != 0]. *)
Definition trace_fn_declared (cfg : chconf) (e : trace_entry) : bool :=
  match e with
  | TraceSwitch =>
      negb (CH_DBG_TRACE_MASK cfg =? CH_DBG_TRACE_MASK_NONE)
      && negb (Z.land (CH_DBG_TRACE_MASK cfg) CH_DBG_TRACE_MASK_SWITCH =? 0)
  | TraceIsrEnter | TraceIsrLeave =>
      negb (CH_DBG_TRACE_MASK cfg =? CH_DBG_TRACE_MASK_NONE)
      && negb (Z.land (CH_DBG_TRACE_MASK cfg) CH_DBG_TRACE_MASK_ISR =? 0)
  end.

(** [s1; s2] *)
Definition seq_stmt {R : Type} (m1 m2 : M R unit) : M R unit :=
  bind m1 (fun _ => m2).

(** A run of calls, one after the other. *)
Definition calls {R : Type} (names : list (option (M R unit)))
  : option (M R unit) :=
  fold_right then_ (Some skip) names.

(** The two lock macros as call sites. *)
Inductive lock_op : Type :=
| EnterLock
| LeaveLock.

Definition lock_macro {R : Type} (TRUE FALSE : Z) (cfg : chconf)
    (op : lock_op) : option (M R unit) :=
  match op with
  | EnterLock => _dbg_enter_lock TRUE FALSE cfg
  | LeaveLock => _dbg_leave_lock TRUE FALSE cfg
  end.

(** The constant each of them assigns. *)
Definition lock_value (op : lock_op) : Z :=
  match op with
  | EnterLock => 1
  | LeaveLock => 0
  end.

(** The condition [(a) && (b)] of a call site: [b] is evaluated only
    when [a] is not zero, and the value is 0 or 1. *)
Definition c_and {R : Type} (a b : M R Z) : M R Z :=
  bind a (fun va =>
    if va =? 0 then ret 0
    else bind b (fun vb => ret (if vb =? 0 then 0 else 1))).

(** A condition with a side effect: it takes the lock and yields 1. *)
Definition locking_condition : M unit Z :=
  fun s => Returns 1 (set_lock_cnt s 1).

(* ===================================================================== *)
(** * Bit-field lemmas *)
(* ===================================================================== *)

Section BitFields.

Variables off w : Z.
Hypothesis Hoff : 0 <= off.
Hypothesis Hw : 0 <= w.

Lemma bf_get_range (x : Z) : 0 <= bf_get off w x < 2 ^ w.
Proof.
  unfold bf_get. rewrite Z.land_ones by assumption.
  apply Z.mod_pos_bound. apply Z.pow_pos_nonneg; lia.
Qed.

Lemma bf_get_set (x v : Z) : bf_get off w (bf_set off w x v) = v mod 2 ^ w.
Proof.
  unfold bf_get, bf_set.
  rewrite <- (Z.land_ones v w) by assumption.
  Z.bitblast.
Qed.

Lemma bf_get_set_small (x v : Z) :
  0 <= v < 2 ^ w -> bf_get off w (bf_set off w x v) = v.
Proof.
  intros Hv. rewrite bf_get_set. apply Z.mod_small. exact Hv.
Qed.

(** Assigning one field leaves a field that does not overlap it alone. *)
Lemma bf_get_set_other (off' w' x v : Z) :
  0 <= off' -> 0 <= w' ->
  off' + w' <= off \/ off + w <= off' ->
  bf_get off' w' (bf_set off w x v) = bf_get off' w' x.
Proof.
  intros Hoff' Hw' Hdisj. unfold bf_get, bf_set.
  Z.bitblast.
Qed.

(** An assignment keeps the unit a 32-bit word. *)
Lemma bf_set_word (x v : Z) :
  off + w <= 32 -> 0 <= x < 2 ^ 32 -> 0 <= bf_set off w x v < 2 ^ 32.
Proof.
  intros Hfit Hx. unfold bf_set.
  assert (Hm : bf_set off w x v mod 2 ^ 32 = bf_set off w x v).
  { unfold bf_set.
    rewrite <- (Z.mod_small x (2 ^ 32)) at 2 by exact Hx.
    rewrite <- !Z.land_ones by lia.
    Z.bitblast. }
  unfold bf_set in Hm. rewrite <- Hm.
  apply Z.mod_pos_bound. lia.
Qed.

End BitFields.

(* ===================================================================== *)
(** * The lock counter *)
(* ===================================================================== *)

Section LockCounter.

Variable R : Type.
Variables TRUE FALSE : Z.
Variable cfg : chconf.

Lemma state_check_switch_true (on : M R unit) :
  CH_DBG_SYSTEM_STATE_CHECK cfg = TRUE ->
  state_check_switch TRUE FALSE cfg on = Some on.
Proof.
  intros H. unfold state_check_switch. rewrite H, Z.eqb_refl. reflexivity.
Qed.

Lemma state_check_switch_false (on : M R unit) :
  TRUE <> FALSE ->
  CH_DBG_SYSTEM_STATE_CHECK cfg = FALSE ->
  state_check_switch TRUE FALSE cfg on = Some skip.
Proof.
  intros Hne H. unfold state_check_switch. rewrite H, Z.eqb_refl.
  destruct (FALSE =? TRUE) eqn:E; [ | reflexivity ].
  apply Z.eqb_eq in E. congruence.
Qed.

Lemma enter_lock_checked (s : ch_system R) :
  CH_DBG_SYSTEM_STATE_CHECK cfg = TRUE ->
  call (_dbg_enter_lock TRUE FALSE cfg) s = Some (Returns tt (set_lock_cnt s 1)).
Proof.
  intros H. unfold _dbg_enter_lock.
  rewrite state_check_switch_true by exact H. reflexivity.
Qed.

Lemma leave_lock_checked (s : ch_system R) :
  CH_DBG_SYSTEM_STATE_CHECK cfg = TRUE ->
  call (_dbg_leave_lock TRUE FALSE cfg) s = Some (Returns tt (set_lock_cnt s 0)).
Proof.
  intros H. unfold _dbg_leave_lock.
  rewrite state_check_switch_true by exact H. reflexivity.
Qed.

(** C1, as amended: in a build with the state checker enabled,
    [_dbg_enter_lock] stores 1 in the lock counter and [_dbg_leave_lock]
    stores 0, whatever the counter held, and neither touches anything
    else.  So entering adds one exactly when the counter was 0 and
    leaving subtracts one exactly when it was 1: the counter is a flag,
    not a nesting count. *)
Theorem lock_macros_store_constants (s : ch_system R) :
  CH_DBG_SYSTEM_STATE_CHECK cfg = TRUE ->
  (exists s1,
      call (_dbg_enter_lock TRUE FALSE cfg) s = Some (Returns tt s1) /\
      lock_cnt s1 = 1 /\ ch_rest s1 = ch_rest s /\
      (lock_cnt s1 = lock_cnt s + 1 <-> lock_cnt s = 0)) /\
  (exists s0,
      call (_dbg_leave_lock TRUE FALSE cfg) s = Some (Returns tt s0) /\
      lock_cnt s0 = 0 /\ ch_rest s0 = ch_rest s /\
      (lock_cnt s0 = lock_cnt s - 1 <-> lock_cnt s = 1)).
Proof.
  intros H. split.
  - exists (set_lock_cnt s 1). rewrite enter_lock_checked by exact H.
    cbn. repeat split; lia.
  - exists (set_lock_cnt s 0). rewrite leave_lock_checked by exact H.
    cbn. repeat split; lia.
Qed.

(** C2, as amended: with the state checker enabled, [_dbg_enter_lock]
    followed at once by [_dbg_leave_lock] leaves the lock counter at 0
    and the rest of the system as it was; the counter is back at its
    initial value exactly when that value was 0.  With the state checker
    disabled both are empty and the system is unchanged. *)
Theorem enter_then_leave_lock (s : ch_system R) :
  (CH_DBG_SYSTEM_STATE_CHECK cfg = TRUE ->
   exists s',
     call (then_ (_dbg_enter_lock TRUE FALSE cfg)
                 (_dbg_leave_lock TRUE FALSE cfg)) s
     = Some (Returns tt s') /\
     lock_cnt s' = 0 /\ ch_rest s' = ch_rest s /\
     (lock_cnt s' = lock_cnt s <-> lock_cnt s = 0)) /\
  (TRUE <> FALSE -> CH_DBG_SYSTEM_STATE_CHECK cfg = FALSE ->
   call (then_ (_dbg_enter_lock TRUE FALSE cfg)
               (_dbg_leave_lock TRUE FALSE cfg)) s
   = Some (Returns tt s)).
Proof.
  split.
  - intros H. exists (set_lock_cnt s 0).
    unfold _dbg_enter_lock, _dbg_leave_lock.
    rewrite !state_check_switch_true by exact H.
    cbn. repeat split; lia.
  - intros Hne H. unfold _dbg_enter_lock, _dbg_leave_lock.
    rewrite !state_check_switch_false by assumption.
    reflexivity.
Qed.

(** C6: with [CH_DBG_SYSTEM_STATE_CHECK] equal to [FALSE], every name of
    the state checker is an empty macro: whatever the kernel sources
    define for it, a call returns at once, leaves the system as it was
    and requests no halt. *)
Theorem state_checker_disabled_is_noop (ext : chdebug_c R) :
  TRUE <> FALSE ->
  CH_DBG_SYSTEM_STATE_CHECK cfg = FALSE ->
  Forall (fun name => forall s, call name s = Some (Returns tt s))
         (state_checker_names TRUE FALSE cfg).
Proof.
  intros Hne H. unfold state_checker_names.
  unfold _dbg_enter_lock, _dbg_leave_lock, _dbg_check_disable,
    _dbg_check_suspend, _dbg_check_enable, _dbg_check_lock,
    _dbg_check_unlock, _dbg_check_lock_from_isr,
    _dbg_check_unlock_from_isr, _dbg_check_enter_isr,
    _dbg_check_leave_isr, chDbgCheckClassI, chDbgCheckClassS.
  rewrite !state_check_switch_false by assumption.
  repeat constructor.
Qed.

End LockCounter.

(** With the counter at 1, [_dbg_enter_lock] leaves it at 1, not 2. *)
Lemma enter_lock_does_not_count :
  exists s s',
    call (_dbg_enter_lock 1 0 (chconf_switches 1 1 1)) s = Some (Returns tt s') /\
    s = ch_with_lock_cnt 1 /\
    lock_cnt s' = 1 /\
    lock_cnt s' <> lock_cnt s + 1.
Proof.
  exists (ch_with_lock_cnt 1), (ch_with_lock_cnt 1).
  repeat split. cbn. lia.
Qed.

(** Started with the counter at 1, enter then leave ends with it at 0. *)
Lemma enter_then_leave_changes_counter :
  exists s s',
    call (then_ (_dbg_enter_lock 1 0 (chconf_switches 1 1 1))
                (_dbg_leave_lock 1 0 (chconf_switches 1 1 1))) s
    = Some (Returns tt s') /\
    s = ch_with_lock_cnt 1 /\
    lock_cnt s' = 0 /\
    lock_cnt s' <> lock_cnt s.
Proof.
  exists (ch_with_lock_cnt 1), (ch_with_lock_cnt 0).
  repeat split. cbn. lia.
Qed.

(* ===================================================================== *)
(** * The trace record *)
(* ===================================================================== *)

Lemma widths_fill_the_unit :
  type_width + state_width + rtstamp_width = 32 /\
  type_off = 0 /\ state_off = 3 /\ rtstamp_off = 8.
Proof. repeat split. Qed.

(** The three fields are the whole word and nothing else. *)
Lemma bits_of_fields (x : Z) :
  0 <= x < 2 ^ 32 ->
  x = bf_get type_off type_width x
      + 2 ^ 3 * bf_get state_off state_width x
      + 2 ^ 8 * bf_get rtstamp_off rtstamp_width x.
Proof.
  intros Hx. unfold bf_get.
  rewrite !Z.land_ones by (vm_compute; discriminate).
  rewrite !Z.shiftr_div_pow2 by (vm_compute; discriminate).
  change type_off with 0. change state_off with 3. change rtstamp_off with 8.
  change type_width with 3. change state_width with 5.
  change rtstamp_width with 24.
  change (2 ^ 0) with 1. change (2 ^ 3) with 8. change (2 ^ 5) with 32.
  change (2 ^ 8) with 256. change (2 ^ 24) with 16777216.
  change (2 ^ 32) with 4294967296 in Hx.
  Z.div_mod_to_equations. lia.
Qed.

Lemma set_rtstamp_fields (e : ch_trace_event_t) (v : Z) :
  ev_rtstamp (set_rtstamp e v) = v mod 2 ^ 24 /\
  ev_type (set_rtstamp e v) = ev_type e /\
  ev_state (set_rtstamp e v) = ev_state e.
Proof.
  unfold ev_rtstamp, ev_type, ev_state, set_rtstamp, with_bits. cbn [bits].
  split; [ | split ].
  - apply bf_get_set; vm_compute; discriminate.
  - apply bf_get_set_other; try (vm_compute; discriminate).
    left. vm_compute. discriminate.
  - apply bf_get_set_other; try (vm_compute; discriminate).
    left. vm_compute. discriminate.
Qed.

Lemma set_type_fields (e : ch_trace_event_t) (v : Z) :
  ev_type (set_type e v) = v mod 2 ^ 3 /\
  ev_state (set_type e v) = ev_state e /\
  ev_rtstamp (set_type e v) = ev_rtstamp e.
Proof.
  unfold ev_rtstamp, ev_type, ev_state, set_type, with_bits. cbn [bits].
  split; [ | split ].
  - apply bf_get_set; vm_compute; discriminate.
  - apply bf_get_set_other; try (vm_compute; discriminate).
    right. vm_compute. discriminate.
  - apply bf_get_set_other; try (vm_compute; discriminate).
    right. vm_compute. discriminate.
Qed.

Lemma set_state_fields (e : ch_trace_event_t) (v : Z) :
  ev_state (set_state e v) = v mod 2 ^ 5 /\
  ev_type (set_state e v) = ev_type e /\
  ev_rtstamp (set_state e v) = ev_rtstamp e.
Proof.
  unfold ev_rtstamp, ev_type, ev_state, set_state, with_bits. cbn [bits].
  split; [ | split ].
  - apply bf_get_set; vm_compute; discriminate.
  - apply bf_get_set_other; try (vm_compute; discriminate).
    left. vm_compute. discriminate.
  - apply bf_get_set_other; try (vm_compute; discriminate).
    right. vm_compute. discriminate.
Qed.

(** Each assignment keeps a record a record. *)
Lemma set_fields_ok (e : ch_trace_event_t) (v : Z) :
  event_ok e ->
  event_ok (set_type e v) /\ event_ok (set_state e v) /\
  event_ok (set_rtstamp e v).
Proof.
  intros He. unfold event_ok in He.
  split; [ | split ]; unfold event_ok;
    [ unfold set_type | unfold set_state | unfold set_rtstamp ];
    unfold with_bits; cbn [bits];
    (apply bf_set_word; [ vm_compute; discriminate .. | exact He ]).
Qed.

Lemma trace_record_fields (rt : bool) (rtcnt systime kind state : Z)
    (payload : trace_payload) (slot : ch_trace_event_t) :
  ev_type (trace_record rt rtcnt systime kind state payload slot)
  = kind mod 2 ^ 3 /\
  ev_state (trace_record rt rtcnt systime kind state payload slot)
  = state mod 2 ^ 5 /\
  ev_rtstamp (trace_record rt rtcnt systime kind state payload slot)
  = (if rt then rtcnt else 0) mod 2 ^ 24.
Proof.
  unfold trace_record. cbn zeta.
  set (e1 := set_type slot kind).
  set (e2 := set_state e1 state).
  set (v := if rt then rtcnt else 0).
  destruct (set_rtstamp_fields e2 v) as (Hr & Ht & Hs).
  destruct (set_state_fields e1 state) as (Hs2 & Ht2 & _).
  destruct (set_type_fields slot kind) as (Ht1 & _ & _).
  fold e1 in Ht1. fold e2 in Hs2, Ht2.
  split; [ | split ].
  - change (ev_type (set_rtstamp e2 v) = kind mod 2 ^ 3).
    rewrite Ht, Ht2. exact Ht1.
  - change (ev_state (set_rtstamp e2 v) = state mod 2 ^ 5).
    rewrite Hs. exact Hs2.
  - change (ev_rtstamp (set_rtstamp e2 v) = v mod 2 ^ 24).
    exact Hr.
Qed.

(** C8: in every event record the record type has 3-bit range, the
    switched-out state 5-bit range and the fine timestamp 24-bit range
    (what an assignment stores is the value modulo [2 ^ 24], so every
    value of [[0, 2 ^ 24)] is stored as it is); the three widths add up to
    the 32 bits of one word, which the three fields make up; and the
    recorder on a platform without cycle counter stores a fine timestamp
    of zero. *)
Theorem event_record_bit_fields (e : ch_trace_event_t) :
  event_ok e ->
  (0 <= ev_type e < 2 ^ 3 /\
   0 <= ev_state e < 2 ^ 5 /\
   0 <= ev_rtstamp e < 2 ^ 24) /\
  (type_width + state_width + rtstamp_width = 32 /\
   bits e = ev_type e + 2 ^ 3 * ev_state e + 2 ^ 8 * ev_rtstamp e) /\
  (forall v,
      ev_rtstamp (set_rtstamp e v) = v mod 2 ^ 24 /\
      0 <= ev_rtstamp (set_rtstamp e v) < 2 ^ 24 /\
      ev_type (set_rtstamp e v) = ev_type e /\
      ev_state (set_rtstamp e v) = ev_state e /\
      event_ok (set_rtstamp e v)) /\
  (forall rtcnt systime kind state payload,
      ev_rtstamp (trace_record false rtcnt systime kind state payload e) = 0 /\
      ev_rtstamp (trace_record true rtcnt systime kind state payload e)
      = rtcnt mod 2 ^ 24).
Proof.
  intros He. split; [ | split; [ | split ] ].
  - unfold ev_type, ev_state, ev_rtstamp.
    repeat split; apply bf_get_range; vm_compute; discriminate.
  - split; [ reflexivity | ].
    unfold ev_type, ev_state, ev_rtstamp. apply bits_of_fields. exact He.
  - intros v. destruct (set_rtstamp_fields e v) as (Hr & Ht & Hs).
    destruct (set_fields_ok e v He) as (_ & _ & Hok).
    repeat split; try assumption.
    + unfold ev_rtstamp. apply bf_get_range; vm_compute; discriminate.
    + unfold ev_rtstamp. apply bf_get_range; vm_compute; discriminate.
    + apply Hok.
    + apply Hok.
  - intros rtcnt systime kind state payload.
    split.
    + destruct (trace_record_fields false rtcnt systime kind state payload e)
        as (_ & _ & Hr).
      rewrite Hr. reflexivity.
    + destruct (trace_record_fields true rtcnt systime kind state payload e)
        as (_ & _ & Hr).
      exact Hr.
Qed.

Lemma event_record_bit_fields_witness :
  event_ok sample_event /\
  (0 <= ev_type sample_event < 2 ^ 3 /\
   0 <= ev_state sample_event < 2 ^ 5 /\
   0 <= ev_rtstamp sample_event < 2 ^ 24) /\
  bits sample_event
  = ev_type sample_event + 2 ^ 3 * ev_state sample_event
    + 2 ^ 8 * ev_rtstamp sample_event.
Proof.
  assert (Hok : event_ok sample_event) by (vm_compute; split; congruence).
  split; [ exact Hok | ].
  split.
  - exact (proj1 (event_record_bit_fields sample_event Hok)).
  - exact (proj2 (proj1 (proj2 (event_record_bit_fields sample_event Hok)))).
Defined.

(** C10: the four record types are 0, 1, 2 and 3, pairwise distinct, each
    within the range of the 3-bit type field; a record type assigned to the
    field of any record is read back unchanged, and the assignment leaves
    the other two fields alone. *)
Theorem trace_type_roundtrip (k : Z) (e : ch_trace_event_t) :
  In k trace_types ->
  0 <= k < 2 ^ type_width /\
  ev_type (set_type e k) = k /\
  ev_state (set_type e k) = ev_state e /\
  ev_rtstamp (set_type e k) = ev_rtstamp e /\
  NoDup trace_types /\
  trace_types = [0; 1; 2; 3].
Proof.
  intros Hk.
  assert (Hrange : 0 <= k < 2 ^ 3).
  { unfold trace_types in Hk. cbn in Hk.
    change (2 ^ 3) with 8.
    destruct Hk as [<- | [<- | [<- | [<- | []]]]]; vm_compute;
      split; congruence. }
  destruct (set_type_fields e k) as (Ht & Hs & Hr).
  split; [ exact Hrange | ].
  split; [ rewrite Ht; apply Z.mod_small; exact Hrange | ].
  split; [ exact Hs | ].
  split; [ exact Hr | ].
  split; [ | reflexivity ].
  unfold trace_types, CH_TRACE_TYPE_UNUSED, CH_TRACE_TYPE_SWITCH,
    CH_TRACE_TYPE_ISR_ENTER, CH_TRACE_TYPE_ISR_LEAVE.
  repeat constructor; cbn; intuition discriminate.
Qed.

Lemma trace_type_roundtrip_witness :
  In CH_TRACE_TYPE_ISR_LEAVE trace_types /\
  ev_type (set_type sample_event CH_TRACE_TYPE_ISR_LEAVE)
  = CH_TRACE_TYPE_ISR_LEAVE.
Proof.
  assert (Hin : In CH_TRACE_TYPE_ISR_LEAVE trace_types).
  { unfold trace_types. cbn. right. right. right. left. reflexivity. }
  split; [ exact Hin | ].
  exact (proj1 (proj2 (trace_type_roundtrip CH_TRACE_TYPE_ISR_LEAVE
                                            sample_event Hin))).
Defined.

(* ===================================================================== *)
(** * Defaults of the build-time settings *)
(* ===================================================================== *)

(** C7: where [chconf.h] does not define [CH_DBG_TRACE_BUFFER_SIZE], the
    header sets it to 128, and the ring of a trace buffer has 128
    entries. *)
Theorem default_trace_buffer_size (cfg : chconf) (tb : ch_trace_buffer_t) :
  user_CH_DBG_TRACE_BUFFER_SIZE cfg = None ->
  trace_buffer_ok cfg tb ->
  CH_DBG_TRACE_BUFFER_SIZE cfg = 128 /\
  length (tb_buffer tb) = 128%nat.
Proof.
  intros Hnone Hok. unfold trace_buffer_ok in Hok.
  unfold CH_DBG_TRACE_BUFFER_SIZE in *. rewrite Hnone in *. cbn in *.
  split; [ reflexivity | lia ].
Qed.

Lemma default_trace_buffer_size_witness :
  user_CH_DBG_TRACE_BUFFER_SIZE (chconf_switches 1 1 1) = None /\
  trace_buffer_ok (chconf_switches 1 1 1) blank_buffer /\
  CH_DBG_TRACE_BUFFER_SIZE (chconf_switches 1 1 1) = 128 /\
  length (tb_buffer blank_buffer) = 128%nat.
Proof.
  assert (Hok : trace_buffer_ok (chconf_switches 1 1 1) blank_buffer)
    by (vm_compute; reflexivity).
  split; [ reflexivity | ].
  split; [ exact Hok | ].
  exact (default_trace_buffer_size (chconf_switches 1 1 1) blank_buffer
                                   eq_refl Hok).
Defined.

(* ===================================================================== *)
(** * The trace mask *)
(* ===================================================================== *)

Section TraceMask.

Variable R : Type.
Variable cfg : chconf.

Lemma elided_compiled_out (e : trace_entry) :
  elided cfg e = true -> compiled_out R cfg e.
Proof.
  intros He ext c s Hc. subst e.
  destruct c; cbn in He |- *;
    unfold _dbg_trace_switch, _dbg_trace_isr_enter, _dbg_trace_isr_leave;
    rewrite He; reflexivity.
Qed.

Lemma not_elided_compiled_in (e : trace_entry) :
  elided cfg e = false -> compiled_in R cfg e.
Proof.
  intros He ext c s Hc. subst e.
  destruct c; cbn in He |- *;
    unfold _dbg_trace_switch, _dbg_trace_isr_enter, _dbg_trace_isr_leave;
    rewrite He; reflexivity.
Qed.

Lemma entry_of_a_call (e : trace_entry) : entry_of (a_call e) = e.
Proof. destruct e; reflexivity. Qed.

(** On the loud kernel a call site tells whether it was elided. *)
Lemma run_trace_loud (e : trace_entry) (s : ch_system R) :
  run_trace cfg (ext := loud_kernel R) (a_call e) s
  = if elided cfg e then Returns tt s
    else run_impl (ext := loud_kernel R) (a_call e) s.
Proof.
  destruct e; cbn;
    unfold _dbg_trace_switch, _dbg_trace_isr_enter, _dbg_trace_isr_leave;
    match goal with |- context [?a =? 0] => destruct (a =? 0) end;
    reflexivity.
Qed.

Lemma run_impl_loud_halts (e : trace_entry) (s : ch_system R) :
  exists reason, run_impl (ext := loud_kernel R) (a_call e) s = Halts reason s.
Proof. destruct e; cbn; eexists; reflexivity. Qed.

Lemma compiled_out_elided (e : trace_entry) (s : ch_system R) :
  compiled_out R cfg e -> elided cfg e = true.
Proof.
  intros H.
  specialize (H (loud_kernel R) (a_call e) s (entry_of_a_call e)).
  rewrite run_trace_loud in H.
  destruct (elided cfg e); [ reflexivity | ].
  destruct (run_impl_loud_halts e s) as (reason & Hh).
  rewrite Hh in H. discriminate H.
Qed.

Lemma compiled_in_not_elided (e : trace_entry) (s : ch_system R) :
  compiled_in R cfg e -> elided cfg e = false.
Proof.
  intros H.
  specialize (H (loud_kernel R) (a_call e) s (entry_of_a_call e)).
  rewrite run_trace_loud in H.
  destruct (elided cfg e); [ | reflexivity ].
  destruct (run_impl_loud_halts e s) as (reason & Hh).
  rewrite Hh in H. discriminate H.
Qed.

Lemma isr_pair_elided_together :
  elided cfg TraceIsrEnter = elided cfg TraceIsrLeave.
Proof. reflexivity. Qed.

Lemma compiled_out_transfer (e e' : trace_entry) :
  elided cfg e = elided cfg e' ->
  compiled_out R cfg e -> compiled_out R cfg e'.
Proof.
  intros Heq H ext c s Hc.
  refine (elided_compiled_out e' _ ext c s Hc).
  rewrite <- Heq. apply (compiled_out_elided e s). exact H.
Qed.

Lemma compiled_in_transfer (e e' : trace_entry) :
  elided cfg e = elided cfg e' ->
  compiled_in R cfg e -> compiled_in R cfg e'.
Proof.
  intros Heq H ext c s Hc.
  refine (not_elided_compiled_in e' _ ext c s Hc).
  rewrite <- Heq. apply (compiled_in_not_elided e s). exact H.
Qed.

(** C9: where [chconf.h] does not define [CH_DBG_TRACE_MASK], the mask
    is [CH_DBG_TRACE_MASK_ALL], the union of the switch bit and the ISR
    bit; the trace structures are present and each of the three entry
    points is compiled in. *)
Theorem default_trace_mask_traces_all (e : trace_entry) :
  user_CH_DBG_TRACE_MASK cfg = None ->
  CH_DBG_TRACE_MASK cfg = CH_DBG_TRACE_MASK_ALL /\
  CH_DBG_TRACE_MASK cfg
  = Z.lor CH_DBG_TRACE_MASK_SWITCH CH_DBG_TRACE_MASK_ISR /\
  trace_structures_present cfg = true /\
  elided cfg e = false /\
  compiled_in R cfg e.
Proof.
  intros Hnone.
  assert (Hm : CH_DBG_TRACE_MASK cfg = CH_DBG_TRACE_MASK_ALL).
  { unfold CH_DBG_TRACE_MASK. rewrite Hnone. reflexivity. }
  assert (He : elided cfg e = false).
  { destruct e; cbn; rewrite Hm; reflexivity. }
  split; [ exact Hm | ].
  split; [ exact Hm | ].
  split; [ unfold trace_structures_present; rewrite Hm; reflexivity | ].
  split; [ exact He | ].
  apply not_elided_compiled_in. exact He.
Qed.

End TraceMask.

Lemma default_trace_mask_traces_all_witness :
  user_CH_DBG_TRACE_MASK (chconf_switches 1 1 1) = None /\
  CH_DBG_TRACE_MASK (chconf_switches 1 1 1) = 3 /\
  compiled_in unit (chconf_switches 1 1 1) TraceIsrLeave.
Proof.
  split; [ reflexivity | ].
  split.
  - exact (proj1 (default_trace_mask_traces_all
                    unit (chconf_switches 1 1 1) TraceIsrLeave eq_refl)).
  - exact (proj2 (proj2 (proj2 (proj2 (default_trace_mask_traces_all
                    unit (chconf_switches 1 1 1) TraceIsrLeave eq_refl))))).
Defined.

(** C3, as amended: the mask controls two groups, the context-switch
    entry point (bit [CH_DBG_TRACE_MASK_SWITCH]) and the two ISR entry
    points together (bit [CH_DBG_TRACE_MASK_ISR]).  Under every mask
    ISR-enter is compiled out exactly when ISR-leave is, and compiled in
    exactly when ISR-leave is; the mask [CH_DBG_TRACE_MASK_ISR] compiles
    out the context-switch entry point and keeps both ISR entry points;
    the mask [CH_DBG_TRACE_MASK_SWITCH] compiles out both ISR entry points
    and keeps the context-switch entry point. *)
Theorem trace_mask_controls_two_groups (R : Type) :
  (forall cfg,
      (compiled_out R cfg TraceIsrEnter <-> compiled_out R cfg TraceIsrLeave) /\
      (compiled_in R cfg TraceIsrEnter <-> compiled_in R cfg TraceIsrLeave)) /\
  (exists cfg,
      CH_DBG_TRACE_MASK cfg = CH_DBG_TRACE_MASK_ISR /\
      compiled_out R cfg TraceSwitch /\
      compiled_in R cfg TraceIsrEnter /\
      compiled_in R cfg TraceIsrLeave) /\
  (exists cfg,
      CH_DBG_TRACE_MASK cfg = CH_DBG_TRACE_MASK_SWITCH /\
      compiled_in R cfg TraceSwitch /\
      compiled_out R cfg TraceIsrEnter /\
      compiled_out R cfg TraceIsrLeave).
Proof.
  split; [ | split ].
  - intros cfg. split; split.
    + apply compiled_out_transfer. reflexivity.
    + apply compiled_out_transfer. reflexivity.
    + apply compiled_in_transfer. reflexivity.
    + apply compiled_in_transfer. reflexivity.
  - exists (chconf_mask 1 1 1 CH_DBG_TRACE_MASK_ISR).
    split; [ reflexivity | ].
    split; [ apply elided_compiled_out; reflexivity | ].
    split; apply not_elided_compiled_in; reflexivity.
  - exists (chconf_mask 1 1 1 CH_DBG_TRACE_MASK_SWITCH).
    split; [ reflexivity | ].
    split; [ apply not_elided_compiled_in; reflexivity | ].
    split; apply elided_compiled_out; reflexivity.
Qed.

(** No mask compiles out ISR-enter alone: whenever it is compiled out,
    another entry point (ISR-leave) is not compiled in. *)
Lemma isr_enter_not_disabled_alone :
  exists e,
    e = TraceIsrEnter /\
    forall cfg,
      compiled_out unit cfg e ->
      exists e', e' <> e /\ ~ compiled_in unit cfg e'.
Proof.
  exists TraceIsrEnter. split; [ reflexivity | ].
  intros cfg Hout. exists TraceIsrLeave.
  split; [ discriminate | ].
  intros Hin.
  apply (compiled_out_elided unit cfg TraceIsrEnter (ch_with_lock_cnt 0))
    in Hout.
  apply (compiled_in_not_elided unit cfg TraceIsrLeave (ch_with_lock_cnt 0))
    in Hin.
  rewrite <- (isr_pair_elided_together cfg) in Hin. congruence.
Qed.

(* ===================================================================== *)
(** * The check and assert gate *)
(* ===================================================================== *)

Section Gate.

Variable R : Type.
Variable FALSE : Z.
Variable cfg : chconf.

Lemma chDbgCheck_enabled (func : string) (c : M R Z) (s : ch_system R) :
  CH_DBG_ENABLE_CHECKS cfg <> FALSE ->
  chDbgCheck FALSE cfg func c s
  = bind c (fun v => if v =? 0 then chSysHalt func else ret tt) s.
Proof.
  intros H. unfold chDbgCheck.
  destruct (CH_DBG_ENABLE_CHECKS cfg =? FALSE) eqn:E; [ | reflexivity ].
  apply Z.eqb_eq in E. contradiction.
Qed.

Lemma chDbgCheck_disabled (func : string) (c : M R Z) (s : ch_system R) :
  CH_DBG_ENABLE_CHECKS cfg = FALSE ->
  chDbgCheck FALSE cfg func c s = Returns tt s.
Proof.
  intros H. unfold chDbgCheck. rewrite H, Z.eqb_refl. reflexivity.
Qed.

(** C4: let the condition evaluate to [v], leaving the system in [s'].
    With [CH_DBG_ENABLE_CHECKS] different from [FALSE], [chDbgCheck]
    requests a halt exactly when [v] is zero (the condition is false),
    the halt carries the name of the enclosing function, and otherwise
    the macro returns.  With [CH_DBG_ENABLE_CHECKS] equal to [FALSE],
    [chDbgCheck] does nothing, whatever its condition is: the condition
    is not even evaluated. *)
Theorem chDbgCheck_halts_iff_condition_false
    (func : string) (c : M R Z) (s s' : ch_system R) (v : Z) :
  c s = Returns v s' ->
  (CH_DBG_ENABLE_CHECKS cfg <> FALSE ->
   ((exists reason st, chDbgCheck FALSE cfg func c s = Halts reason st)
    <-> v = 0) /\
   (v = 0 -> chDbgCheck FALSE cfg func c s = Halts func s') /\
   (v <> 0 -> chDbgCheck FALSE cfg func c s = Returns tt s')) /\
  (CH_DBG_ENABLE_CHECKS cfg = FALSE ->
   forall c' : M R Z, chDbgCheck FALSE cfg func c' s = Returns tt s).
Proof.
  intros Hc. split.
  - intros Hon.
    assert (Hrun : chDbgCheck FALSE cfg func c s
                   = if v =? 0 then Halts func s' else Returns tt s').
    { rewrite chDbgCheck_enabled by exact Hon.
      unfold bind. rewrite Hc.
      destruct (v =? 0); reflexivity. }
    rewrite Hrun.
    destruct (Z.eqb_spec v 0) as [Hz | Hnz].
    + split; [ | split ].
      * split; [ intros _; exact Hz | intros _; eauto ].
      * reflexivity.
      * intros Hv. contradiction.
    + split; [ | split ].
      * split; [ intros (reason & st & Hh); discriminate Hh
               | intros Hv; contradiction ].
      * intros Hv. contradiction.
      * reflexivity.
  - intros Hoff c'. apply chDbgCheck_disabled. exact Hoff.
Qed.

(** C5: the outcome of [chDbgAssert(c, r)] does not depend on the remark:
    for any two remarks, whatever evaluating them would do, the outcomes
    are the same. *)
Theorem chDbgAssert_ignores_remark
    (func : string) (c : M R Z) (r1 r2 : M R string) (s : ch_system R) :
  chDbgAssert FALSE cfg func c r1 s = chDbgAssert FALSE cfg func c r2 s.
Proof.
  unfold chDbgAssert.
  destruct (negb (CH_DBG_ENABLE_ASSERTS cfg =? FALSE)); reflexivity.
Qed.

End Gate.

(** A remark that would stop the system if it were evaluated changes
    nothing: the assertion holds and the macro returns. *)
Example chDbgAssert_remark_not_evaluated :
  chDbgAssert 0 (chconf_switches 1 1 1) "chMtxLock" (ret 1)
              (chSysHalt "remark") (ch_with_lock_cnt 1)
  = Returns tt (ch_with_lock_cnt 1).
Proof. reflexivity. Qed.

(** A failed check stops the system under the caller's name. *)
Example chDbgCheck_failed_check :
  chDbgCheck 0 (chconf_switches 1 1 1) "chMtxLock" (ret 0) (ch_with_lock_cnt 1)
  = Halts "chMtxLock" (ch_with_lock_cnt 1).
Proof. reflexivity. Qed.

Lemma chDbgCheck_halts_iff_condition_false_witness :
  (ret 0 (ch_with_lock_cnt 1) = Returns 0 (ch_with_lock_cnt 1) /\
   CH_DBG_ENABLE_CHECKS (chconf_switches 1 1 1) <> 0 /\
   chDbgCheck 0 (chconf_switches 1 1 1) "chMtxLock" (ret 0)
              (ch_with_lock_cnt 1)
   = Halts "chMtxLock" (ch_with_lock_cnt 1)) /\
  (ret 7 (ch_with_lock_cnt 1) = Returns 7 (ch_with_lock_cnt 1) /\
   chDbgCheck 0 (chconf_switches 1 1 1) "chMtxLock" (ret 7)
              (ch_with_lock_cnt 1)
   = Returns tt (ch_with_lock_cnt 1)) /\
  (CH_DBG_ENABLE_CHECKS (chconf_switches 1 0 1) = 0 /\
   chDbgCheck 0 (chconf_switches 1 0 1) "chMtxLock" (chSysHalt "condition")
              (ch_with_lock_cnt 1)
   = Returns tt (ch_with_lock_cnt 1)).
Proof.
  assert (Hon : CH_DBG_ENABLE_CHECKS (chconf_switches 1 1 1) <> 0)
    by (cbn; discriminate).
  assert (H7 : 7 <> 0) by discriminate.
  split; [ | split ].
  - split; [ reflexivity | ]. split; [ exact Hon | ].
    exact (proj1 (proj2 (proj1
             (chDbgCheck_halts_iff_condition_false
                unit 0 (chconf_switches 1 1 1) "chMtxLock" (ret 0)
                (ch_with_lock_cnt 1) (ch_with_lock_cnt 1) 0 eq_refl) Hon))
             eq_refl).
  - split; [ reflexivity | ].
    exact (proj2 (proj2 (proj1
             (chDbgCheck_halts_iff_condition_false
                unit 0 (chconf_switches 1 1 1) "chMtxLock" (ret 7)
                (ch_with_lock_cnt 1) (ch_with_lock_cnt 1) 7 eq_refl) Hon))
             H7).
  - split; [ reflexivity | ].
    exact (proj2
             (chDbgCheck_halts_iff_condition_false
                unit 0 (chconf_switches 1 0 1) "chMtxLock" (ret 0)
                (ch_with_lock_cnt 1) (ch_with_lock_cnt 1) 0 eq_refl)
             eq_refl (chSysHalt "condition")).
Defined.

(* ===================================================================== *)
(** * The lock counter and the state checker on concrete builds *)
(* ===================================================================== *)

Lemma lock_macros_store_constants_witness :
  CH_DBG_SYSTEM_STATE_CHECK (chconf_switches 1 1 1) = 1 /\
  (exists s1,
      call (_dbg_enter_lock 1 0 (chconf_switches 1 1 1)) (ch_with_lock_cnt 5)
      = Some (Returns tt s1) /\
      lock_cnt s1 = 1 /\ ch_rest s1 = ch_rest (ch_with_lock_cnt 5) /\
      (lock_cnt s1 = lock_cnt (ch_with_lock_cnt 5) + 1
       <-> lock_cnt (ch_with_lock_cnt 5) = 0)) /\
  (exists s0,
      call (_dbg_leave_lock 1 0 (chconf_switches 1 1 1)) (ch_with_lock_cnt 5)
      = Some (Returns tt s0) /\
      lock_cnt s0 = 0 /\ ch_rest s0 = ch_rest (ch_with_lock_cnt 5) /\
      (lock_cnt s0 = lock_cnt (ch_with_lock_cnt 5) - 1
       <-> lock_cnt (ch_with_lock_cnt 5) = 1)).
Proof.
  split; [ reflexivity | ].
  exact (lock_macros_store_constants unit 1 0 (chconf_switches 1 1 1)
                                     (ch_with_lock_cnt 5) eq_refl).
Defined.

Lemma enter_then_leave_lock_witness :
  (CH_DBG_SYSTEM_STATE_CHECK (chconf_switches 1 1 1) = 1 /\
   exists s',
     call (then_ (_dbg_enter_lock 1 0 (chconf_switches 1 1 1))
                 (_dbg_leave_lock 1 0 (chconf_switches 1 1 1)))
          (ch_with_lock_cnt 0)
     = Some (Returns tt s') /\
     lock_cnt s' = 0 /\ ch_rest s' = ch_rest (ch_with_lock_cnt 0) /\
     (lock_cnt s' = lock_cnt (ch_with_lock_cnt 0)
      <-> lock_cnt (ch_with_lock_cnt 0) = 0)) /\
  (1 <> 0 /\
   CH_DBG_SYSTEM_STATE_CHECK (chconf_switches 0 1 1) = 0 /\
   call (then_ (_dbg_enter_lock 1 0 (chconf_switches 0 1 1))
               (_dbg_leave_lock 1 0 (chconf_switches 0 1 1)))
        (ch_with_lock_cnt 3)
   = Some (Returns tt (ch_with_lock_cnt 3))).
Proof.
  assert (H10 : 1 <> 0) by discriminate.
  split.
  - split; [ reflexivity | ].
    exact (proj1 (enter_then_leave_lock unit 1 0 (chconf_switches 1 1 1)
                                        (ch_with_lock_cnt 0)) eq_refl).
  - split; [ exact H10 | ]. split; [ reflexivity | ].
    exact (proj2 (enter_then_leave_lock unit 1 0 (chconf_switches 0 1 1)
                                        (ch_with_lock_cnt 3)) H10 eq_refl).
Defined.

Lemma state_checker_disabled_is_noop_witness :
  1 <> 0 /\
  CH_DBG_SYSTEM_STATE_CHECK (chconf_switches 0 1 1) = 0 /\
  Forall (fun name => forall s, call name s = Some (Returns tt s))
         (state_checker_names 1 0 (chconf_switches 0 1 1)
                              (ext := loud_kernel unit)).
Proof.
  assert (H10 : 1 <> 0) by discriminate.
  split; [ exact H10 | ]. split; [ reflexivity | ].
  exact (state_checker_disabled_is_noop unit 1 0 (chconf_switches 0 1 1)
                                        (loud_kernel unit) H10 eq_refl).
Defined.

(* ===================================================================== *)
(** * Assignments to the fields of a record *)
(* ===================================================================== *)

Section BitFieldAlgebra.

Variables off w : Z.
Hypothesis Hoff : 0 <= off.
Hypothesis Hw : 0 <= w.

Lemma bf_set_set (x a b : Z) :
  bf_set off w (bf_set off w x a) b = bf_set off w x b.
Proof. unfold bf_set. Z.bitblast. Qed.

Lemma bf_set_get (x : Z) : bf_set off w x (bf_get off w x) = x.
Proof. unfold bf_set, bf_get. Z.bitblast. Qed.

Lemma bf_set_comm (off' w' x a b : Z) :
  0 <= off' -> 0 <= w' ->
  off' + w' <= off \/ off + w <= off' ->
  bf_set off w (bf_set off' w' x a) b = bf_set off' w' (bf_set off w x b) a.
Proof. intros Ho Hw' Hd. unfold bf_set. Z.bitblast. Qed.

End BitFieldAlgebra.

Lemma with_bits_same (e : ch_trace_event_t) : with_bits e (bits e) = e.
Proof. destruct e. reflexivity. Qed.

Ltac field_side := solve [ vm_compute; discriminate
                         | left; vm_compute; discriminate
                         | right; vm_compute; discriminate ].

(** X1: assignments to two different bit fields of a record can be made
    in either order: the record that results is the same. *)
Theorem field_assignments_commute (e : ch_trace_event_t) (k st r : Z) :
  set_state (set_type e k) st = set_type (set_state e st) k /\
  set_rtstamp (set_type e k) r = set_type (set_rtstamp e r) k /\
  set_rtstamp (set_state e st) r = set_state (set_rtstamp e r) st.
Proof.
  unfold set_type, set_state, set_rtstamp, with_bits. cbn [bits time u].
  split; [ | split ]; f_equal; apply bf_set_comm; field_side.
Qed.

(** X2: of two assignments to the same bit field only the second counts,
    and assigning a field the value it already has leaves the record as
    it is. *)
Theorem field_assignment_last_wins (e : ch_trace_event_t) (a b : Z) :
  (set_type (set_type e a) b = set_type e b /\
   set_state (set_state e a) b = set_state e b /\
   set_rtstamp (set_rtstamp e a) b = set_rtstamp e b) /\
  (set_type e (ev_type e) = e /\
   set_state e (ev_state e) = e /\
   set_rtstamp e (ev_rtstamp e) = e).
Proof.
  split.
  - unfold set_type, set_state, set_rtstamp, with_bits. cbn [bits time u].
    split; [ | split ]; f_equal; apply bf_set_set; field_side.
  - unfold set_type, set_state, set_rtstamp, ev_type, ev_state, ev_rtstamp.
    rewrite !bf_set_get by field_side.
    rewrite with_bits_same. repeat split.
Qed.

(** X3: the switched-out state read back after an assignment is the
    assigned value modulo 32, a value of [[0, 32)] is read back as it is,
    and whatever is assigned, the record type and the fine timestamp
    keep their values and the unit stays a 32-bit word: a state too large
    for the field never spills into its neighbours. *)
Theorem state_field_roundtrip (e : ch_trace_event_t) (v : Z) :
  event_ok e ->
  ev_state (set_state e v) = v mod 2 ^ 5 /\
  ev_state (set_state e (v mod 2 ^ 5)) = v mod 2 ^ 5 /\
  ev_type (set_state e v) = ev_type e /\
  ev_rtstamp (set_state e v) = ev_rtstamp e /\
  event_ok (set_state e v).
Proof.
  intros He.
  destruct (set_state_fields e v) as (Hs & Ht & Hr).
  destruct (set_state_fields e (v mod 2 ^ 5)) as (Hs' & _ & _).
  destruct (set_fields_ok e v He) as (_ & Hok & _).
  split; [ exact Hs | ].
  split; [ rewrite Hs'; apply Z.mod_mod; discriminate | ].
  split; [ exact Ht | ].
  split; [ exact Hr | exact Hok ].
Qed.

Lemma state_field_roundtrip_witness :
  event_ok sample_event /\
  ev_state (set_state sample_event 45) = 13 /\
  ev_type (set_state sample_event 45) = ev_type sample_event /\
  ev_rtstamp (set_state sample_event 45) = ev_rtstamp sample_event.
Proof.
  assert (Hok : event_ok sample_event) by (vm_compute; split; congruence).
  split; [ exact Hok | ].
  split; [ exact (proj1 (state_field_roundtrip sample_event 45 Hok)) | ].
  split.
  - exact (proj1 (proj2 (proj2 (state_field_roundtrip sample_event 45 Hok)))).
  - exact (proj1 (proj2 (proj2 (proj2
             (state_field_roundtrip sample_event 45 Hok))))).
Defined.

(** X4: writing the three bit fields of a slot overwrites its whole word:
    the word that results is made of the three assigned values (each
    reduced to its field) and of nothing that the slot held before. *)
Theorem record_write_leaves_no_residue
    (slot : ch_trace_event_t) (k st r : Z) :
  event_ok slot ->
  bits (set_rtstamp (set_state (set_type slot k) st) r)
  = k mod 2 ^ 3 + 2 ^ 3 * (st mod 2 ^ 5) + 2 ^ 8 * (r mod 2 ^ 24).
Proof.
  intros Hslot.
  set (e1 := set_type slot k).
  set (e2 := set_state e1 st).
  set (e3 := set_rtstamp e2 r).
  assert (H1 : event_ok e1) by apply (set_fields_ok slot k Hslot).
  assert (H2 : event_ok e2) by apply (set_fields_ok e1 st H1).
  assert (H3 : event_ok e3) by apply (set_fields_ok e2 r H2).
  destruct (set_type_fields slot k) as (Ht1 & _ & _).
  destruct (set_state_fields e1 st) as (Hs2 & Ht2 & _).
  destruct (set_rtstamp_fields e2 r) as (Hr3 & Ht3 & Hs3).
  fold e1 in Ht1. fold e2 in Hs2, Ht2. fold e3 in Hr3, Ht3, Hs3.
  rewrite (bits_of_fields (bits e3) H3).
  change (bf_get type_off type_width (bits e3)) with (ev_type e3).
  change (bf_get state_off state_width (bits e3)) with (ev_state e3).
  change (bf_get rtstamp_off rtstamp_width (bits e3)) with (ev_rtstamp e3).
  rewrite Hr3, Hs3, Hs2, Ht3, Ht2, Ht1. reflexivity.
Qed.

(** A slot that holds an older record. *)
Lemma record_write_leaves_no_residue_witness :
  event_ok sample_event /\
  bits (set_rtstamp (set_state (set_type sample_event 2) 0) 5) = 2 + 2 ^ 8 * 5.
Proof.
  assert (Hok : event_ok sample_event) by (vm_compute; split; congruence).
  split; [ exact Hok | ].
  exact (record_write_leaves_no_residue sample_event 2 0 5 Hok).
Defined.

(** X5: a record holds nothing besides its fields: two records with the
    same record type, state, fine timestamp, system time and payload are
    the same record. *)
Theorem event_determined_by_fields (e1 e2 : ch_trace_event_t) :
  event_ok e1 -> event_ok e2 ->
  ev_type e1 = ev_type e2 ->
  ev_state e1 = ev_state e2 ->
  ev_rtstamp e1 = ev_rtstamp e2 ->
  time e1 = time e2 ->
  u e1 = u e2 ->
  e1 = e2.
Proof.
  intros H1 H2 Ht Hs Hr Htime Hu.
  assert (Hb : bits e1 = bits e2).
  { rewrite (bits_of_fields (bits e1) H1), (bits_of_fields (bits e2) H2).
    unfold ev_type, ev_state, ev_rtstamp in Ht, Hs, Hr.
    rewrite Ht, Hs, Hr. reflexivity. }
  destruct e1, e2. cbn in *. subst. reflexivity.
Qed.

Lemma event_determined_by_fields_witness :
  event_ok sample_event /\
  event_ok {| bits := 1 + 8 * 9 + 256 * 0xBCDEF0; time := 77; u := u_sw 4096 0 |} /\
  sample_event
  = {| bits := 1 + 8 * 9 + 256 * 0xBCDEF0; time := 77; u := u_sw 4096 0 |}.
Proof.
  assert (H1 : event_ok sample_event) by (vm_compute; split; congruence).
  assert (H2 : event_ok {| bits := 1 + 8 * 9 + 256 * 0xBCDEF0; time := 77;
                           u := u_sw 4096 0 |})
    by (vm_compute; split; congruence).
  split; [ exact H1 | ]. split; [ exact H2 | ].
  apply (event_determined_by_fields _ _ H1 H2); reflexivity.
Defined.

(* ===================================================================== *)
(** * The trace mask and the declarations *)
(* ===================================================================== *)

Lemma land_bit_nonzero (m b : Z) : Z.land m b <> 0 -> m <> 0.
Proof. intros H Hm. apply H. rewrite Hm. apply Z.land_0_l. Qed.

Lemma land_through_all (m b : Z) :
  Z.land b CH_DBG_TRACE_MASK_ALL = b ->
  Z.land m b = Z.land (Z.land m CH_DBG_TRACE_MASK_ALL) b.
Proof.
  intros Hb. rewrite <- Z.land_assoc.
  rewrite (Z.land_comm CH_DBG_TRACE_MASK_ALL b), Hb. reflexivity.
Qed.

Lemma elided_by_low_bits (cfg : chconf) (e : trace_entry) :
  elided cfg e
  = match e with
    | TraceSwitch =>
        Z.land (Z.land (CH_DBG_TRACE_MASK cfg) CH_DBG_TRACE_MASK_ALL)
               CH_DBG_TRACE_MASK_SWITCH =? 0
    | TraceIsrEnter | TraceIsrLeave =>
        Z.land (Z.land (CH_DBG_TRACE_MASK cfg) CH_DBG_TRACE_MASK_ALL)
               CH_DBG_TRACE_MASK_ISR =? 0
    end.
Proof.
  destruct e; cbn [elided];
    rewrite <- land_through_all by reflexivity; reflexivity.
Qed.

Lemma low_bits_range (m : Z) :
  0 <= Z.land m CH_DBG_TRACE_MASK_ALL < 4.
Proof.
  change CH_DBG_TRACE_MASK_ALL with (Z.ones 2).
  rewrite Z.land_ones by discriminate.
  apply Z.mod_pos_bound. reflexivity.
Qed.

Lemma trace_fn_declared_unless_elided (cfg : chconf) (e : trace_entry) :
  trace_fn_declared cfg e = negb (elided cfg e).
Proof.
  destruct e; cbn [elided trace_fn_declared];
    match goal with
    | |- context [Z.land ?m ?b =? 0] =>
        destruct (Z.eqb_spec (Z.land m b) 0) as [Hz | Hnz]
    end;
    try apply andb_false_r;
    (assert (Hm : CH_DBG_TRACE_MASK cfg <> CH_DBG_TRACE_MASK_NONE)
       by (apply (land_bit_nonzero _ _ Hnz)));
    apply Z.eqb_neq in Hm; rewrite Hm; reflexivity.
Qed.

Lemma not_elided_structures_present (cfg : chconf) (e : trace_entry) :
  elided cfg e = false -> trace_structures_present cfg = true.
Proof.
  intros He. unfold trace_structures_present.
  destruct (Z.eqb_spec (CH_DBG_TRACE_MASK cfg) CH_DBG_TRACE_MASK_NONE)
    as [Hm | Hm]; [ | reflexivity ].
  destruct e; cbn [elided] in He; rewrite Hm in He; discriminate He.
Qed.

(** X6: under every mask each trace entry point is exactly one of two
    things: an empty macro with no declaration behind it, or a declared
    function with no macro in its way.  Where the function is declared the
    trace structures and [_dbg_trace_init] are there too, so a call site
    that is not compiled out always has its declaration. *)
Theorem trace_name_macro_or_function (cfg : chconf) (e : trace_entry) :
  (elided cfg e = true /\ trace_fn_declared cfg e = false) \/
  (elided cfg e = false /\ trace_fn_declared cfg e = true /\
   trace_structures_present cfg = true /\
   _dbg_trace_init_declared cfg = true).
Proof.
  rewrite trace_fn_declared_unless_elided.
  destruct (elided cfg e) eqn:He.
  - left. split; reflexivity.
  - right. split; [ reflexivity | ]. split; [ reflexivity | ].
    split; apply (not_elided_structures_present cfg e He).
Qed.

(** X7: a mask with neither of the two defined bits compiles out all
    three entry points, whether it is [CH_DBG_TRACE_MASK_NONE] (no trace
    structures) or has other bits set (the structures are there and
    nothing writes to them); and the structures are absent exactly under
    [CH_DBG_TRACE_MASK_NONE]. *)
Theorem mask_without_defined_bits_traces_nothing
    (R : Type) (cfg : chconf) (e : trace_entry) :
  Z.land (CH_DBG_TRACE_MASK cfg) CH_DBG_TRACE_MASK_ALL = 0 ->
  elided cfg e = true /\
  compiled_out R cfg e /\
  trace_fn_declared cfg e = false /\
  (trace_structures_present cfg = false
   <-> CH_DBG_TRACE_MASK cfg = CH_DBG_TRACE_MASK_NONE).
Proof.
  intros Hlow.
  assert (He : elided cfg e = true).
  { rewrite elided_by_low_bits, Hlow. destruct e; reflexivity. }
  split; [ exact He | ].
  split; [ apply elided_compiled_out; exact He | ].
  split.
  - rewrite trace_fn_declared_unless_elided, He. reflexivity.
  - unfold trace_structures_present.
    destruct (Z.eqb_spec (CH_DBG_TRACE_MASK cfg) CH_DBG_TRACE_MASK_NONE);
      cbn; split; congruence.
Qed.

Lemma mask_without_defined_bits_traces_nothing_witness :
  Z.land (CH_DBG_TRACE_MASK (chconf_mask 1 1 1 4)) CH_DBG_TRACE_MASK_ALL = 0 /\
  compiled_out unit (chconf_mask 1 1 1 4) TraceSwitch /\
  trace_structures_present (chconf_mask 1 1 1 4) = true.
Proof.
  split; [ reflexivity | ].
  split; [ | reflexivity ].
  exact (proj1 (proj2 (mask_without_defined_bits_traces_nothing
                         unit (chconf_mask 1 1 1 4) TraceSwitch eq_refl))).
Defined.

(** X8: which entry points are compiled out is decided by the two defined
    bits of the mask and by nothing else: two builds compile out the same
    entry points exactly when their masks agree on
    [CH_DBG_TRACE_MASK_ALL]. *)
Theorem elision_decided_by_defined_bits (cfg cfg' : chconf) :
  (forall e, elided cfg e = elided cfg' e) <->
  Z.land (CH_DBG_TRACE_MASK cfg) CH_DBG_TRACE_MASK_ALL
  = Z.land (CH_DBG_TRACE_MASK cfg') CH_DBG_TRACE_MASK_ALL.
Proof.
  split.
  - intros H.
    pose proof (H TraceSwitch) as Hs. pose proof (H TraceIsrEnter) as Hi.
    rewrite !elided_by_low_bits in Hs, Hi.
    pose proof (low_bits_range (CH_DBG_TRACE_MASK cfg)) as Hr.
    pose proof (low_bits_range (CH_DBG_TRACE_MASK cfg')) as Hr'.
    set (a := Z.land (CH_DBG_TRACE_MASK cfg) CH_DBG_TRACE_MASK_ALL) in *.
    set (b := Z.land (CH_DBG_TRACE_MASK cfg') CH_DBG_TRACE_MASK_ALL) in *.
    assert (Ha : a = 0 \/ a = 1 \/ a = 2 \/ a = 3) by lia.
    assert (Hb : b = 0 \/ b = 1 \/ b = 2 \/ b = 3) by lia.
    destruct Ha as [-> | [-> | [-> | ->]]];
      destruct Hb as [-> | [-> | [-> | ->]]];
      solve [ reflexivity | discriminate Hs | discriminate Hi ].
  - intros H e. rewrite !elided_by_low_bits, H. reflexivity.
Qed.

(* ===================================================================== *)
(** * Runs of lock and state-checker calls *)
(* ===================================================================== *)

Lemma last_default_irrelevant (A : Type) (x : A) (l : list A) (d d' : A) :
  last (x :: l) d = last (x :: l) d'.
Proof.
  revert x. induction l as [ | y l IH ]; intros x; [ reflexivity | ].
  change (last (y :: l) d = last (y :: l) d'). apply IH.
Qed.

Lemma last_cons_default (A : Type) (x : A) (l : list A) (d : A) :
  last (x :: l) d = last l x.
Proof.
  destruct l as [ | y l ]; [ reflexivity | ].
  change (last (y :: l) d = last (y :: l) x).
  apply last_default_irrelevant.
Qed.

Section CallRuns.

Variable R : Type.
Variables TRUE FALSE : Z.
Variable cfg : chconf.

Lemma lock_macro_checked (op : lock_op) :
  CH_DBG_SYSTEM_STATE_CHECK cfg = TRUE ->
  lock_macro TRUE FALSE cfg op
  = Some (fun s : ch_system R => Returns tt (set_lock_cnt s (lock_value op))).
Proof.
  intros H. destruct op; cbn [lock_macro lock_value];
    unfold _dbg_enter_lock, _dbg_leave_lock;
    apply state_check_switch_true; exact H.
Qed.

Lemma lock_calls_run (ops : list lock_op) :
  CH_DBG_SYSTEM_STATE_CHECK cfg = TRUE ->
  exists g : M R unit,
    calls (map (lock_macro TRUE FALSE cfg) ops) = Some g /\
    forall s,
      g s = Returns tt {| lock_cnt := last (map lock_value ops) (lock_cnt s);
                          ch_rest := ch_rest s |}.
Proof.
  intros H. induction ops as [ | op ops IH ].
  - exists skip. split; [ reflexivity | ].
    intros s. destruct s. reflexivity.
  - destruct IH as (g & Hg & Hrun).
    cbn [map]. unfold calls in *. cbn [fold_right].
    rewrite Hg, (lock_macro_checked op H). cbn [then_].
    eexists. split; [ reflexivity | ].
    intros s. unfold bind. rewrite Hrun.
    cbn [lock_cnt ch_rest set_lock_cnt].
    rewrite last_cons_default. reflexivity.
Qed.

(** X9: with the state checker enabled, a run of [_dbg_enter_lock] and
    [_dbg_leave_lock] calls, in any number and order, never stops the
    system, changes nothing but the lock counter, and leaves in it the
    constant of the last call: 1 after an enter, 0 after a leave,
    however many enters came before (the counter is untouched by an
    empty run). *)
Theorem lock_calls_last_one_decides (ops : list lock_op) (s : ch_system R) :
  CH_DBG_SYSTEM_STATE_CHECK cfg = TRUE ->
  exists s',
    call (calls (map (lock_macro TRUE FALSE cfg) ops)) s = Some (Returns tt s') /\
    lock_cnt s' = last (map lock_value ops) (lock_cnt s) /\
    ch_rest s' = ch_rest s.
Proof.
  intros H. destruct (lock_calls_run ops H) as (g & Hg & Hrun).
  eexists. rewrite Hg. cbn [call]. rewrite Hrun.
  split; [ reflexivity | ]. split; reflexivity.
Qed.

Lemma state_checker_names_disabled (ext : chdebug_c R) :
  TRUE <> FALSE ->
  CH_DBG_SYSTEM_STATE_CHECK cfg = FALSE ->
  Forall (fun name => name = Some skip) (state_checker_names TRUE FALSE cfg).
Proof.
  intros Hne H. unfold state_checker_names.
  unfold _dbg_enter_lock, _dbg_leave_lock, _dbg_check_disable,
    _dbg_check_suspend, _dbg_check_enable, _dbg_check_lock,
    _dbg_check_unlock, _dbg_check_lock_from_isr,
    _dbg_check_unlock_from_isr, _dbg_check_enter_isr,
    _dbg_check_leave_isr, chDbgCheckClassI, chDbgCheckClassS.
  rewrite !state_check_switch_false by assumption.
  repeat constructor.
Qed.

Lemma skip_calls_run (prog : list (option (M R unit))) :
  Forall (fun name => name = Some skip) prog ->
  exists g : M R unit,
    calls prog = Some g /\ forall s, g s = Returns tt s.
Proof.
  induction 1 as [ | name prog Hname _ IH ].
  - exists skip. split; [ reflexivity | ]. intros s. reflexivity.
  - destruct IH as (g & Hg & Hrun). subst name.
    unfold calls in *. cbn [fold_right]. rewrite Hg. cbn [then_].
    eexists. split; [ reflexivity | ].
    intros s. unfold bind, skip, ret. apply Hrun.
Qed.

(** X10: with the state checker disabled, a run of calls of state-checker
    names, in any number and order, returns with the system as it was and
    requests no halt, whatever the kernel sources define for them. *)
Theorem disabled_state_checker_run_is_noop
    (ext : chdebug_c R) (prog : list (option (M R unit))) (s : ch_system R) :
  TRUE <> FALSE ->
  CH_DBG_SYSTEM_STATE_CHECK cfg = FALSE ->
  Forall (fun name => In name (state_checker_names TRUE FALSE cfg)) prog ->
  call (calls prog) s = Some (Returns tt s).
Proof.
  intros Hne H Hprog.
  pose proof (state_checker_names_disabled ext Hne H) as Hall.
  rewrite Forall_forall in Hall.
  assert (Hskip : Forall (fun name => name = Some skip) prog).
  { rewrite Forall_forall in Hprog |- *.
    intros name Hin. apply Hall. apply Hprog. exact Hin. }
  destruct (skip_calls_run prog Hskip) as (g & Hg & Hrun).
  rewrite Hg. cbn [call]. rewrite Hrun. reflexivity.
Qed.

End CallRuns.

(** Two enters and one leave: a nesting count would be left at 1. *)
Lemma lock_calls_last_one_decides_witness :
  CH_DBG_SYSTEM_STATE_CHECK (chconf_switches 1 1 1) = 1 /\
  exists s',
    call (calls (map (lock_macro 1 0 (chconf_switches 1 1 1))
                     [EnterLock; EnterLock; LeaveLock]))
         (ch_with_lock_cnt 0)
    = Some (Returns tt s') /\
    lock_cnt s' = 0 /\
    ch_rest s' = tt.
Proof.
  split; [ reflexivity | ].
  exact (lock_calls_last_one_decides
           unit 1 0 (chconf_switches 1 1 1)
           [EnterLock; EnterLock; LeaveLock] (ch_with_lock_cnt 0) eq_refl).
Defined.

Lemma disabled_state_checker_run_is_noop_witness :
  1 <> 0 /\
  CH_DBG_SYSTEM_STATE_CHECK (chconf_switches 0 1 1) = 0 /\
  call (calls [_dbg_check_lock 1 0 (chconf_switches 0 1 1)
                 (ext := loud_kernel unit);
               _dbg_enter_lock 1 0 (chconf_switches 0 1 1);
               chDbgCheckClassS 1 0 (chconf_switches 0 1 1)
                 (ext := loud_kernel unit);
               _dbg_check_unlock 1 0 (chconf_switches 0 1 1)
                 (ext := loud_kernel unit);
               _dbg_leave_lock 1 0 (chconf_switches 0 1 1)])
       (ch_with_lock_cnt 0)
  = Some (Returns tt (ch_with_lock_cnt 0)).
Proof.
  assert (H10 : 1 <> 0) by discriminate.
  split; [ exact H10 | ]. split; [ reflexivity | ].
  apply (disabled_state_checker_run_is_noop
           unit 1 0 (chconf_switches 0 1 1) (loud_kernel unit) _ _ H10 eq_refl).
  repeat constructor; cbn; tauto.
Defined.

(* ===================================================================== *)
(** * Using the check and assert gate *)
(* ===================================================================== *)

Section GateUse.

Variable R : Type.
Variable FALSE : Z.

(** X11: two checks in a row are one check of the conjunction:
    [chDbgCheck(a); chDbgCheck(b);] and [chDbgCheck((a) && (b));] have
    the same outcome in every build, for any two conditions, side effects
    and halts of theirs included. *)
Theorem checks_in_a_row_are_a_conjunction
    (cfg : chconf) (func : string) (a b : M R Z) (s : ch_system R) :
  seq_stmt (chDbgCheck FALSE cfg func a) (chDbgCheck FALSE cfg func b) s
  = chDbgCheck FALSE cfg func (c_and a b) s.
Proof.
  unfold seq_stmt, chDbgCheck, c_and.
  destruct (negb (CH_DBG_ENABLE_CHECKS cfg =? FALSE)); [ | reflexivity ].
  unfold bind.
  destruct (a s) as [va s1 | ra s1]; [ | reflexivity ].
  destruct (va =? 0); [ reflexivity | ].
  unfold ret at 1.
  destruct (b s1) as [vb s2 | rb s2]; [ | reflexivity ].
  unfold ret.
  destruct (vb =? 0); reflexivity.
Qed.

(** X12: compiling the checks out keeps what a passing check does exactly
    when its condition has no side effect: for a condition that holds,
    the build with checks and the build without them end in the same
    outcome if and only if evaluating the condition leaves the system as
    it was. *)
Theorem check_elision_and_side_effects
    (cfg_on cfg_off : chconf) (func : string) (c : M R Z)
    (s s' : ch_system R) (v : Z) :
  CH_DBG_ENABLE_CHECKS cfg_on <> FALSE ->
  CH_DBG_ENABLE_CHECKS cfg_off = FALSE ->
  c s = Returns v s' ->
  v <> 0 ->
  chDbgCheck FALSE cfg_on func c s = Returns tt s' /\
  chDbgCheck FALSE cfg_off func c s = Returns tt s /\
  (chDbgCheck FALSE cfg_on func c s = chDbgCheck FALSE cfg_off func c s
   <-> s' = s).
Proof.
  intros Hon Hoff Hc Hv.
  assert (H1 : chDbgCheck FALSE cfg_on func c s = Returns tt s').
  { rewrite chDbgCheck_enabled by exact Hon. unfold bind. rewrite Hc.
    destruct (Z.eqb_spec v 0); [ contradiction | reflexivity ]. }
  assert (H2 : chDbgCheck FALSE cfg_off func c s = Returns tt s)
    by (apply chDbgCheck_disabled; exact Hoff).
  split; [ exact H1 | ]. split; [ exact H2 | ].
  rewrite H1, H2. split.
  - intros E. injection E as E. exact E.
  - intros E. rewrite E. reflexivity.
Qed.

(** X13: [chDbgAssert(c, r)] is [chDbgCheck(c)] under the other switch:
    in a build whose [CH_DBG_ENABLE_ASSERTS] has the value that
    [CH_DBG_ENABLE_CHECKS] has in another, the assertion of the first and
    the check of the second have the same outcome. *)
Theorem chDbgAssert_is_chDbgCheck_under_asserts_switch
    (cfg cfg' : chconf) (func : string) (c : M R Z) (r : M R string)
    (s : ch_system R) :
  CH_DBG_ENABLE_ASSERTS cfg = CH_DBG_ENABLE_CHECKS cfg' ->
  chDbgAssert FALSE cfg func c r s = chDbgCheck FALSE cfg' func c s.
Proof.
  intros H. unfold chDbgAssert, chDbgCheck. rewrite H. reflexivity.
Qed.

End GateUse.

Lemma check_elision_and_side_effects_witness :
  (CH_DBG_ENABLE_CHECKS (chconf_switches 1 1 1) <> 0 /\
   CH_DBG_ENABLE_CHECKS (chconf_switches 1 0 1) = 0 /\
   locking_condition (ch_with_lock_cnt 0) = Returns 1 (ch_with_lock_cnt 1) /\
   1 <> 0) /\
  chDbgCheck 0 (chconf_switches 1 1 1) "chSchGoSleepS" locking_condition
             (ch_with_lock_cnt 0)
  = Returns tt (ch_with_lock_cnt 1) /\
  chDbgCheck 0 (chconf_switches 1 0 1) "chSchGoSleepS" locking_condition
             (ch_with_lock_cnt 0)
  = Returns tt (ch_with_lock_cnt 0).
Proof.
  assert (Hon : CH_DBG_ENABLE_CHECKS (chconf_switches 1 1 1) <> 0)
    by (cbn; discriminate).
  assert (H1 : 1 <> 0) by discriminate.
  split; [ repeat split; assumption | ].
  split.
  - exact (proj1 (check_elision_and_side_effects
                    unit 0 (chconf_switches 1 1 1) (chconf_switches 1 0 1)
                    "chSchGoSleepS" locking_condition
                    (ch_with_lock_cnt 0) (ch_with_lock_cnt 1) 1
                    Hon eq_refl eq_refl H1)).
  - exact (proj1 (proj2 (check_elision_and_side_effects
                    unit 0 (chconf_switches 1 1 1) (chconf_switches 1 0 1)
                    "chSchGoSleepS" locking_condition
                    (ch_with_lock_cnt 0) (ch_with_lock_cnt 1) 1
                    Hon eq_refl eq_refl H1))).
Defined.

Lemma chDbgAssert_is_chDbgCheck_under_asserts_switch_witness :
  CH_DBG_ENABLE_ASSERTS (chconf_switches 1 0 1)
  = CH_DBG_ENABLE_CHECKS (chconf_switches 1 1 0) /\
  chDbgAssert 0 (chconf_switches 1 0 1) "chMtxLock" (ret 0)
              (chSysHalt "remark") (ch_with_lock_cnt 1)
  = chDbgCheck 0 (chconf_switches 1 1 0) "chMtxLock" (ret 0)
               (ch_with_lock_cnt 1).
Proof.
  split; [ reflexivity | ].
  exact (chDbgAssert_is_chDbgCheck_under_asserts_switch
           unit 0 (chconf_switches 1 0 1) (chconf_switches 1 1 0)
           "chMtxLock" (ret 0) (chSysHalt "remark") (ch_with_lock_cnt 1)
           eq_refl).
Defined.
